(** * DocMindAI: project / section lifecycle, refinement and export

    A shallow embedding of the client pages (Configure, Editor), of the
    refine-content edge function and of the four-table schema
    (projects, sections, refinement_history, feedback).

    The data store is a record of four tables and a supply of fresh row
    identifiers (the [gen_random_uuid()] column defaults).  Every call into
    the store returns a result the program receives as [{ error }]: the
    environment decides whether the store accepts a write ([Accepted]) or
    rejects it ([Rejected], a constraint violation or a network error);
    a rejected write leaves the tables as they were.  Upstream AI calls are
    likewise inputs of the model. *)

From Stdlib Require Import List String Ascii Bool Arith Lia Sorted Permutation QArith.
Import ListNotations.
Open Scope nat_scope.

(** ** Strings: JavaScript's [trim] on ASCII text *)

Definition is_ws (c : ascii) : bool :=
  let n := nat_of_ascii c in
  (n =? 32) || (n =? 9) || (n =? 10) || (n =? 11) || (n =? 12) || (n =? 13).

Fixpoint drop_ws (l : list ascii) : list ascii :=
  match l with
  | [] => []
  | c :: l' => if is_ws c then drop_ws l' else l
  end.

(** [s.trim()] *)
Definition trim (s : string) : string :=
  string_of_list_ascii (rev (drop_ws (rev (drop_ws (list_ascii_of_string s))))).

(** [!s.trim()]: the trimmed string is the empty, falsy, string. *)
Definition is_blank (s : string) : bool :=
  String.eqb (trim s) EmptyString.

(** ** Data model (the SQL schema) *)

Inductive document_type := Docx | Pptx.

Inductive project_status := Draft | Generating | Completed.

Record project := mkProject {
  p_id : nat;
  p_user_id : nat;
  p_document_type : document_type;
  p_topic : string;
  p_status : project_status
}.

Record section := mkSection {
  s_id : nat;
  s_project_id : nat;
  s_order_index : nat;
  s_title : string;
  s_content : option string;
  s_is_generated : bool
}.

Record refinement := mkRefinement {
  rh_id : nat;
  rh_section_id : nat;
  rh_prompt : string;
  rh_previous_content : option string;
  rh_new_content : string
}.

Record feedback := mkFeedback {
  fb_id : nat;
  fb_section_id : nat;
  fb_is_liked : option bool;
  fb_comment : option string
}.

Record db := mkDb {
  projects : list project;
  sections : list section;
  refinement_history : list refinement;
  feedback_rows : list feedback;
  next_uuid : nat
}.

(** What the store answers to one write call. *)
Inductive db_result := Accepted | Rejected.

Definition with_projects (ps : list project) (d : db) : db :=
  mkDb ps (sections d) (refinement_history d) (feedback_rows d) (next_uuid d).

Definition with_sections (ss : list section) (d : db) : db :=
  mkDb (projects d) ss (refinement_history d) (feedback_rows d) (next_uuid d).

Definition set_status (st : project_status) (p : project) : project :=
  mkProject (p_id p) (p_user_id p) (p_document_type p) (p_topic p) st.

Definition set_content (c : string) (s : section) : section :=
  mkSection (s_id s) (s_project_id s) (s_order_index s) (s_title s) (Some c)
    (s_is_generated s).

Definition set_generated (c : string) (s : section) : section :=
  mkSection (s_id s) (s_project_id s) (s_order_index s) (s_title s) (Some c) true.

(** [supabase.from('projects').update({ status }).eq('id', pid)] *)
Definition update_project_status (pid : nat) (st : project_status)
    (r : db_result) (d : db) : db :=
  match r with
  | Rejected => d
  | Accepted =>
      with_projects
        (map (fun p => if p_id p =? pid then set_status st p else p) (projects d)) d
  end.

(** [supabase.from('sections').update({ content }).eq('id', sid)] *)
Definition update_section_content (sid : nat) (c : string)
    (r : db_result) (d : db) : db :=
  match r with
  | Rejected => d
  | Accepted =>
      with_sections
        (map (fun s => if s_id s =? sid then set_content c s else s) (sections d)) d
  end.

(** [supabase.from('projects').insert({...}).select().single()] *)
Definition insert_project (uid : nat) (dt : document_type) (topic : string)
    (st : project_status) (d : db) : db * nat :=
  let pid := next_uuid d in
  (mkDb (projects d ++ [mkProject pid uid dt topic st]) (sections d)
     (refinement_history d) (feedback_rows d) (S pid), pid).

(** One row of the [sectionsData] array built by [handleSubmit]. *)
Record section_row := mkSectionRow {
  sr_project_id : nat;
  sr_title : string;
  sr_order_index : nat
}.

Fixpoint materialize (n : nat) (rows : list section_row) : list section :=
  match rows with
  | [] => []
  | r :: rs =>
      mkSection n (sr_project_id r) (sr_order_index r) (sr_title r) None false
        :: materialize (S n) rs
  end.

(** [supabase.from('sections').insert(sectionsData)]: one batch, all rows
    or none; [content] defaults to null and [is_generated] to false. *)
Definition insert_sections (rows : list section_row) (r : db_result) (d : db) : db :=
  match r with
  | Rejected => d
  | Accepted =>
      mkDb (projects d) (sections d ++ materialize (next_uuid d) rows)
        (refinement_history d) (feedback_rows d) (next_uuid d + List.length rows)
  end.

(** [supabase.from('refinement_history').insert({...})] *)
Definition insert_refinement (sid : nat) (prompt : string) (prev : option string)
    (new : string) (r : db_result) (d : db) : db :=
  match r with
  | Rejected => d
  | Accepted =>
      mkDb (projects d) (sections d)
        (refinement_history d ++ [mkRefinement (next_uuid d) sid prompt prev new])
        (feedback_rows d) (S (next_uuid d))
  end.

(** A [feedback] upsert payload: [None] is a column the object leaves out. *)
Record feedback_payload := mkFeedbackPayload {
  fp_section_id : nat;
  fp_is_liked : option bool;
  fp_comment : option string
}.

(** [supabase.from('feedback').upsert(payload)].  Without [onConflict],
    supabase-js asks PostgREST for [INSERT ... ON CONFLICT (id) DO UPDATE]
    on the primary key; the payload has no [id], so the row takes the column
    default [gen_random_uuid()], modelled as the next fresh identifier.  On a
    conflict only the columns the payload carries are overwritten. *)
Definition upsert_feedback (fp : feedback_payload) (r : db_result) (d : db) : db :=
  match r with
  | Rejected => d
  | Accepted =>
      let fid := next_uuid d in
      let rows :=
        if existsb (fun f => fb_id f =? fid) (feedback_rows d) then
          map (fun f =>
                 if fb_id f =? fid then
                   mkFeedback (fb_id f) (fp_section_id fp)
                     (match fp_is_liked fp with Some b => Some b | None => fb_is_liked f end)
                     (match fp_comment fp with Some c => Some c | None => fb_comment f end)
                 else f) (feedback_rows d)
        else
          feedback_rows d
            ++ [mkFeedback fid (fp_section_id fp) (fp_is_liked fp) (fp_comment fp)] in
      mkDb (projects d) (sections d) (refinement_history d) rows (S fid)
  end.

(** ** The Configure page *)

(** Its local state: [documentType], [topic] and [sections] (the titles). *)
Record config := mkConfig {
  cfg_document_type : document_type;
  cfg_topic : string;
  cfg_sections : list string
}.

Definition with_titles (ts : list string) (c : config) : config :=
  mkConfig (cfg_document_type c) (cfg_topic c) ts.

(** The initial state: [useState([''])]. *)
Definition initial_config : config := mkConfig Docx EmptyString [EmptyString].

Definition addSection (c : config) : config :=
  with_titles (cfg_sections c ++ [EmptyString]) c.

(** [sections.filter((_, i) => i !== index)], counting [i] from [k]. *)
Fixpoint remove_index_from (k index : nat) (l : list string) : list string :=
  match l with
  | [] => []
  | x :: xs =>
      if k =? index then remove_index_from (S k) index xs
      else x :: remove_index_from (S k) index xs
  end.

Definition removeSection (index : nat) (c : config) : config :=
  if 1 <? List.length (cfg_sections c) then
    with_titles (remove_index_from 0 index (cfg_sections c)) c
  else c.

(** [newSections[index] = value] on a copy; the form only calls it with an
    index of the rendered list. *)
Fixpoint set_nth (index : nat) (v : string) (l : list string) : list string :=
  match l, index with
  | [], _ => []
  | _ :: xs, 0 => v :: xs
  | x :: xs, S i => x :: set_nth i v xs
  end.

Definition updateSection (index : nat) (v : string) (c : config) : config :=
  with_titles (set_nth index v (cfg_sections c)) c.

(** Modelled from the spec: the generate-outline edge function is not among
    the sources.  Section 4.1: input the topic and the document kind, output
    an ordered sequence of title strings, no persistence side effect, and an
    upstream failure surfaces as a generic failure.  [upstream] is what the
    AI call yields ([None]: the call failed). *)
Definition generate_outline_fn (topic : string) (dt : document_type)
    (upstream : option (list string)) : option (list string) :=
  upstream.

(** [generateOutline]: the store is passed through to make its frame
    explicit; only the page's titles change. *)
Definition generateOutline (upstream : option (list string)) (c : config) (d : db)
    : config * db :=
  if is_blank (cfg_topic c) then (c, d)
  else
    match generate_outline_fn (cfg_topic c) (cfg_document_type c) upstream with
    | Some outline => (with_titles outline c, d)
    | None => (c, d)
    end.

Inductive submit_result :=
| SubmitInvalid        (* "Please fill in all fields" *)
| SubmitNotLoggedIn    (* "You must be logged in ..." *)
| SubmitFailed         (* "Failed to create project" *)
| SubmitCreated (pid : nat).

(** [sections.map((title, index) => ({ project_id, title: title.trim(),
    order_index: index }))] *)
Definition sectionsData (pid : nat) (titles : list string) : list section_row :=
  map (fun '(index, title) => mkSectionRow pid (trim title) index)
    (combine (seq 0 (List.length titles)) titles).

(** [handleSubmit]; [w_project] and [w_sections] are the store's answers to
    the two inserts. *)
Definition handleSubmit (user : option nat) (c : config)
    (w_project w_sections : db_result) (d : db) : db * submit_result :=
  if is_blank (cfg_topic c) || existsb is_blank (cfg_sections c) then
    (d, SubmitInvalid)
  else
    match user with
    | None => (d, SubmitNotLoggedIn)
    | Some uid =>
        match w_project with
        | Rejected => (d, SubmitFailed)
        | Accepted =>
            let '(d1, pid) :=
              insert_project uid (cfg_document_type c) (trim (cfg_topic c)) Draft d in
            match w_sections with
            | Rejected => (d1, SubmitFailed)
            | Accepted =>
                (insert_sections (sectionsData pid (cfg_sections c)) Accepted d1,
                 SubmitCreated pid)
            end
        end
    end.

(** ** The Editor page *)

(** [.eq('id', id).single()] on projects. *)
Definition load_project (pid : nat) (d : db) : option project :=
  find (fun p => p_id p =? pid) (projects d).

Definition status_of (pid : nat) (d : db) : option project_status :=
  option_map p_status (load_project pid d).

(** [.order('order_index')]: an insertion sort on [order_index]; rows with
    the same position keep the order the table lists them in. *)
Fixpoint insert_by_order (s : section) (l : list section) : list section :=
  match l with
  | [] => [s]
  | x :: xs =>
      if s_order_index s <=? s_order_index x then s :: l
      else x :: insert_by_order s xs
  end.

Definition sort_by_order (l : list section) : list section :=
  fold_right insert_by_order [] l.

(** The [sections] state [loadProject] sets: the project's sections in
    order-position order. *)
Definition load_sections (pid : nat) (d : db) : list section :=
  sort_by_order (filter (fun s => s_project_id s =? pid) (sections d)).

(** Modelled from the spec: the generate-content edge function is not among
    the sources.  Section 4.2: on success every listed section acquires
    generated content and its generated flag is set; the spec names no
    write on failure.  [upstream] is the AI's content per section id
    ([None]: the call failed). *)
Definition generate_content_fn (ids : list nat) (upstream : option (nat -> string))
    (d : db) : option db :=
  match upstream with
  | None => None
  | Some gen =>
      Some (with_sections
              (map (fun s => if existsb (Nat.eqb (s_id s)) ids
                             then set_generated (gen (s_id s)) s else s)
                 (sections d)) d)
  end.

(** [generateAllContent]: [w_generating] answers the first status update,
    [w_final] the update in the success or in the failure branch. *)
Definition generateAllContent (project_state : option project) (pid : nat)
    (secs : list section) (w_generating : db_result)
    (upstream : option (nat -> string)) (w_final : db_result) (d : db) : db :=
  match project_state with
  | None => d
  | Some _ =>
      let d1 := update_project_status pid Generating w_generating d in
      match generate_content_fn (map s_id secs) upstream d1 with
      | None => update_project_status pid Draft w_final d1
      | Some d2 => update_project_status pid Completed w_final d2
      end
  end.

(** The stores [generateAllContent] goes through, one per write, starting
    with the store before the action: after the [generating] update, after
    the content function (success only) and after the final update. *)
Definition generateAllContent_writes (project_state : option project) (pid : nat)
    (secs : list section) (w_generating : db_result)
    (upstream : option (nat -> string)) (w_final : db_result) (d : db) : list db :=
  match project_state with
  | None => [d]
  | Some _ =>
      let d1 := update_project_status pid Generating w_generating d in
      match generate_content_fn (map s_id secs) upstream d1 with
      | None => [d; d1; update_project_status pid Draft w_final d1]
      | Some d2 => [d; d1; d2; update_project_status pid Completed w_final d2]
      end
  end.

Inductive http_response :=
| RespSuccess (content : string)    (* 200, [{ success: true, content }] *)
| RespError (message : string).     (* 500, [{ error }] *)

(** The refine-content edge function.  [api_key] is [LOVABLE_API_KEY];
    [upstream] is [data.choices[0].message.content] ([None]: the response
    was not ok or had no such field, both thrown); [w_history] and
    [w_update] answer the two writes, whose [error] is not read. *)
Definition refine_content (api_key : option string) (sectionId : nat)
    (prompt : string) (currentContent : option string) (title : string)
    (upstream : option string) (w_history w_update : db_result) (d : db)
    : db * http_response :=
  match api_key with
  | None => (d, RespError "LOVABLE_API_KEY not configured")
  | Some _ =>
      match upstream with
      | None => (d, RespError "AI API error")
      | Some refinedContent =>
          let d1 := insert_refinement sectionId prompt currentContent
                      refinedContent w_history d in
          let d2 := update_section_content sectionId refinedContent w_update d1 in
          (d2, RespSuccess refinedContent)
      end
  end.

Inductive refine_result :=
| RefineNoPrompt   (* "Please enter a refinement prompt" *)
| RefineNoSection
| RefineFailed     (* "Failed to refine section" *)
| RefineDone.      (* "Section refined successfully!" *)

(** [refineSection sectionId] in the client: [prompt] is
    [refinementPrompts[sectionId]], [secs] the page's [sections]. *)
Definition refineSection (prompt : option string) (secs : list section)
    (sectionId : nat) (api_key : option string) (upstream : option string)
    (w_history w_update : db_result) (d : db) : db * refine_result :=
  match prompt with
  | None => (d, RefineNoPrompt)
  | Some pr =>
      if is_blank pr then (d, RefineNoPrompt)
      else
        match find (fun s => s_id s =? sectionId) secs with
        | None => (d, RefineNoSection)
        | Some s =>
            match refine_content api_key sectionId pr (s_content s) (s_title s)
                    upstream w_history w_update d with
            | (d', RespError _) => (d', RefineFailed)
            | (d', RespSuccess _) => (d', RefineDone)
            end
        end
  end.

(** [handleFeedback(sectionId, isLiked)] *)
Definition handleFeedback (sectionId : nat) (isLiked : bool) (r : db_result) (d : db)
    : db :=
  upsert_feedback (mkFeedbackPayload sectionId (Some isLiked) None) r d.

(** [saveComment(sectionId)]; [comment] is [comments[sectionId]]. *)
Definition saveComment (comment : option string) (sectionId : nat) (r : db_result)
    (d : db) : db :=
  match comment with
  | None => d
  | Some c =>
      if is_blank c then d
      else upsert_feedback (mkFeedbackPayload sectionId None (Some (trim c))) r d
  end.

(** ** Export *)

Inductive heading_level := HEADING_1 | HEADING_2.

(** A docx [Paragraph]: [{ text, heading }] or [{ children: [TextRun] }]. *)
Inductive paragraph :=
| HeadingParagraph (text : string) (heading : heading_level)
| RunsParagraph (children : list string).

(** One [slide.addText(text, {...})]; [w] is the string ['90%']. *)
Record text_box := mkTextBox {
  tb_text : string;
  tb_x : Q;
  tb_y : Q;
  tb_w : string;
  tb_h : Q;
  tb_fontSize : nat;
  tb_bold : bool;
  tb_align : option string
}.

Definition slide := list text_box.

Inductive artifact :=
| DocxFile (fileName : string) (children : list paragraph)
| PptxFile (fileName : string) (slides : list slide).

(** [section.content || '']: null and the empty string both give ['']. *)
Definition content_or_empty (c : option string) : string :=
  match c with
  | Some s => if String.eqb s EmptyString then EmptyString else s
  | None => EmptyString
  end.

Definition section_paragraphs (s : section) : list paragraph :=
  [HeadingParagraph (s_title s) HEADING_2; RunsParagraph [content_or_empty (s_content s)]].

Definition title_slide (topic : string) : slide :=
  [mkTextBox topic (1#2) 2 "90%" (3#2) 44 true (Some "center"%string)].

Definition section_slide (s : section) : slide :=
  [mkTextBox (s_title s) (1#2) (1#2) "90%" 1 32 true None;
   mkTextBox (content_or_empty (s_content s)) (1#2) (3#2) "90%" 4 16 false None].

(** [exportDocument]: [None] when no project is loaded; otherwise the file
    handed to [saveAs] / [pptx.writeFile]. *)
Definition exportDocument (project_state : option project) (secs : list section)
    : option artifact :=
  match project_state with
  | None => None
  | Some p =>
      match p_document_type p with
      | Docx =>
          Some (DocxFile (p_topic p ++ ".docx")
                  (HeadingParagraph (p_topic p) HEADING_1
                     :: flat_map section_paragraphs secs))
      | Pptx =>
          Some (PptxFile (p_topic p ++ ".pptx")
                  (title_slide (p_topic p) :: map section_slide secs))
      end
  end.

(** ** Reachable stores: one user action at a time *)

Inductive step : db -> db -> Prop :=
| step_create : forall user c w1 w2 d,
    step d (fst (handleSubmit user c w1 w2 d))
| step_generate : forall pid w1 up w2 d,
    (* the "Generate Content" button: no loaded section is generated *)
    existsb s_is_generated (load_sections pid d) = false ->
    step d (generateAllContent (load_project pid d) pid (load_sections pid d)
              w1 up w2 d)
| step_refine : forall pid prompt sid key up w1 w2 d,
    step d (fst (refineSection prompt (load_sections pid d) sid key up w1 w2 d))
| step_feedback : forall sid liked r d,
    step d (handleFeedback sid liked r d)
| step_comment : forall comment sid r d,
    step d (saveComment comment sid r d).

(** The empty store. *)
Definition empty_db : db := mkDb [] [] [] [] 0.

(** ** What the Editor page shows *)

(** A JavaScript truthiness test on [section.content]: null and the empty
    string are falsy. *)
Definition content_truthy (c : option string) : bool :=
  match c with
  | Some s => negb (String.eqb s EmptyString)
  | None => false
  end.

(** [{!sections.some(s => s.is_generated) && <Button>Generate Content}] *)
Definition show_generate (secs : list section) : bool :=
  negb (existsb s_is_generated secs).

(** [{sections.some(s => s.content) && <Button>Export}] *)
Definition show_export (secs : list section) : bool :=
  existsb (fun s => content_truthy (s_content s)) secs.

(** [{section.content && (...)}]: the like/dislike, refine and comment
    controls of one section card. *)
Definition show_section_controls (s : section) : bool :=
  content_truthy (s_content s).

(** ** Edits of the Configure page's title list *)

Inductive config_action :=
| AddSection
| RemoveSection (index : nat)
| UpdateSection (index : nat) (value : string).

Definition apply_config_action (c : config) (a : config_action) : config :=
  match a with
  | AddSection => addSection c
  | RemoveSection i => removeSection i c
  | UpdateSection i v => updateSection i v c
  end.

Definition run_config_actions (c : config) (acts : list config_action) : config :=
  fold_left apply_config_action acts c.

(** ** Well-formed stores: every row id was drawn from the id supply *)

Definition wf (d : db) : Prop :=
  Forall (fun p => p_id p < next_uuid d) (projects d) /\
  Forall (fun s => s_id s < next_uuid d /\ s_project_id s < next_uuid d) (sections d) /\
  Forall (fun r => rh_id r < next_uuid d) (refinement_history d) /\
  Forall (fun f => fb_id f < next_uuid d) (feedback_rows d).

(** Stores reachable from the empty store. *)
Inductive reachable : db -> Prop :=
| reachable_empty : reachable empty_db
| reachable_step : forall d d', reachable d -> step d d' -> reachable d'.

(** ** Row-level security (the policies of the migration) *)

Inductive rls_op := OpSelect | OpInsert | OpUpdate | OpDelete.

(** [EXISTS (SELECT 1 FROM projects WHERE projects.id = pid AND
    projects.user_id = auth.uid())] *)
Definition owns_project (uid pid : nat) (d : db) : bool :=
  existsb (fun p => (p_id p =? pid) && (p_user_id p =? uid)) (projects d).

(** The same through [sections JOIN projects]. *)
Definition owns_section (uid sid : nat) (d : db) : bool :=
  existsb (fun s => (s_id s =? sid) && owns_project uid (s_project_id s) d) (sections d).

(** projects: all four operations need [auth.uid() = user_id]. *)
Definition projects_policy (uid : nat) (op : rls_op) (p : project) : bool :=
  p_user_id p =? uid.

(** sections: all four operations need the project to be the user's. *)
Definition sections_policy (uid : nat) (op : rls_op) (s : section) (d : db) : bool :=
  owns_project uid (s_project_id s) d.

(** refinement_history: SELECT and INSERT only. *)
Definition refinement_policy (uid : nat) (op : rls_op) (r : refinement) (d : db) : bool :=
  match op with
  | OpSelect | OpInsert => owns_section uid (rh_section_id r) d
  | OpUpdate | OpDelete => false
  end.

(** feedback: SELECT, INSERT and UPDATE; no DELETE policy. *)
Definition feedback_policy (uid : nat) (op : rls_op) (f : feedback) (d : db) : bool :=
  match op with
  | OpSelect | OpInsert | OpUpdate => owns_section uid (fb_section_id f) d
  | OpDelete => false
  end.

(** [loadProject]'s sections query as user [uid] sees it under the
    SELECT policy of sections. *)
Definition rls_load_sections (uid pid : nat) (d : db) : list section :=
  sort_by_order
    (filter (fun s => (s_project_id s =? pid) && sections_policy uid OpSelect s d)
       (sections d)).

(** ** Helper views and lemmas *)

(** The section body as the spec words it: the content, or the empty
    string when it is null. *)
Definition spec_body (s : section) : string :=
  match s_content s with Some c => c | None => EmptyString end.

Definition h1_texts (ps : list paragraph) : list string :=
  flat_map (fun p => match p with
                     | HeadingParagraph t HEADING_1 => [t]
                     | _ => []
                     end) ps.

(** Identity, project and order position of every section row. *)
Definition order_positions (d : db) : list (nat * nat * nat) :=
  map (fun s => (s_id s, s_project_id s, s_order_index s)) (sections d).

(** The status changes the spec allows: draft to generating, generating to
    completed, generating back to draft; staying put is no change. *)
Definition spec_allowed_transition (s s' : project_status) : bool :=
  match s, s' with
  | Draft, Draft | Generating, Generating | Completed, Completed => true
  | Draft, Generating | Generating, Completed | Generating, Draft => true
  | _, _ => false
  end.

(** Sample stores. *)
Definition db_one_project : db :=
  mkDb [mkProject 0 7 Docx "EV market analysis" Draft] [] [] [] 1.

Definition db_refine : db :=
  mkDb [mkProject 0 7 Docx "EV market analysis" Completed]
    [mkSection 1 0 0 "Overview" (Some "old text"%string) true] [] [] 2.

Definition cfg_ev : config := mkConfig Docx "EV market analysis" ["A"; "B"; "C"]%string.

Definition head_not_ws (l : list ascii) : Prop :=
  match l with [] => True | c :: _ => is_ws c = false end.


Lemma content_or_empty_spec : forall s, content_or_empty (s_content s) = spec_body s.
Proof.
  intros s; unfold content_or_empty, spec_body.
  destruct (s_content s) as [c|]; [|reflexivity].
  destruct (String.eqb_spec c EmptyString); subst; reflexivity.
Qed.

Lemma h1_texts_sections : forall secs, h1_texts (flat_map section_paragraphs secs) = [].
Proof. induction secs as [|s secs IH]; [reflexivity|exact IH]. Qed.

Lemma insert_by_order_sorted : forall s l,
  Sorted le (map s_order_index l) ->
  Sorted le (map s_order_index (insert_by_order s l)).
Proof.
  intros s l; induction l as [|x xs IH]; intros Hs; simpl.
  - repeat constructor.
  - destruct (Nat.leb_spec (s_order_index s) (s_order_index x)) as [Hle|Hgt].
    + simpl; constructor; [exact Hs|constructor; exact Hle].
    + apply Sorted_inv in Hs as [Hxs Hhd].
      constructor; [apply IH, Hxs|].
      destruct xs as [|y ys]; simpl.
      * constructor; lia.
      * simpl in Hhd; apply HdRel_inv in Hhd.
        destruct (s_order_index s <=? s_order_index y); simpl; constructor; lia.
Qed.

Lemma sort_by_order_sorted : forall l, Sorted le (map s_order_index (sort_by_order l)).
Proof.
  induction l as [|s l IH]; simpl; [constructor|apply insert_by_order_sorted, IH].
Qed.

Lemma flat_map_section_paragraphs : forall secs,
  flat_map section_paragraphs secs
  = flat_map (fun s => [HeadingParagraph (s_title s) HEADING_2;
                        RunsParagraph [spec_body s]]) secs.
Proof.
  induction secs as [|s secs IH]; [reflexivity|].
  simpl; rewrite IH, content_or_empty_spec; reflexivity.
Qed.

Lemma section_slide_texts : forall secs,
  map (map tb_text) (map section_slide secs)
  = map (fun s => [s_title s; spec_body s]) secs.
Proof.
  induction secs as [|s secs IH]; [reflexivity|].
  simpl; rewrite IH, content_or_empty_spec; reflexivity.
Qed.

(** ** Claims *)

(** C1.  The sections the editor exports are loaded in order-position
    order; exporting a project and such a list yields a docx whose only
    top-level heading is the topic, followed, section by section, by one
    sub-heading (the title) and one body paragraph (the content, or the
    empty string when it is null); or a deck whose first slide carries only
    the topic, followed by one slide per section with its title and body. *)
Theorem exportDocument_topic_once_sections_in_order :
  (forall (pid : nat) (d : db), Sorted le (map s_order_index (load_sections pid d))) /\
  (forall (p : project) (secs : list section),
    match exportDocument (Some p) secs with
    | Some (DocxFile _ children) =>
        p_document_type p = Docx /\
        h1_texts children = [p_topic p] /\
        children = HeadingParagraph (p_topic p) HEADING_1
                     :: flat_map (fun s => [HeadingParagraph (s_title s) HEADING_2;
                                            RunsParagraph [spec_body s]]) secs
    | Some (PptxFile _ slides) =>
        p_document_type p = Pptx /\
        map (map tb_text) slides = [p_topic p] :: map (fun s => [s_title s; spec_body s]) secs
    | None => False
    end).
Proof.
  split.
  - intros pid d; apply sort_by_order_sorted.
  - intros p secs; unfold exportDocument.
    destruct (p_document_type p) eqn:Hdt.
    + split; [reflexivity|split].
      * simpl; rewrite h1_texts_sections; reflexivity.
      * rewrite flat_map_section_paragraphs; reflexivity.
    + split; [reflexivity|].
      simpl; rewrite section_slide_texts; reflexivity.
Qed.

Lemma load_project_update_same : forall pid st d,
  load_project pid (update_project_status pid st Accepted d)
  = option_map (set_status st) (load_project pid d).
Proof.
  intros pid st [ps ss rh fb n]; unfold load_project; simpl.
  induction ps as [|p ps IH]; [reflexivity|]; simpl.
  destruct (p_id p =? pid) eqn:E; simpl; rewrite ?E; [reflexivity|exact IH].
Qed.

Lemma load_project_update_other : forall pid q st r d, q <> pid ->
  load_project q (update_project_status pid st r d) = load_project q d.
Proof.
  intros pid q st [|] [ps ss rh fb n] Hq; [|reflexivity]; unfold load_project; simpl.
  induction ps as [|p ps IH]; [reflexivity|]; simpl.
  destruct (p_id p =? pid) eqn:E; simpl; [|destruct (p_id p =? q); [reflexivity|exact IH]].
  apply Nat.eqb_eq in E; subst.
  replace (p_id p =? q) with false by (symmetry; apply Nat.eqb_neq; congruence).
  exact IH.
Qed.

Lemma load_project_with_sections : forall pid ss d,
  load_project pid (with_sections ss d) = load_project pid d.
Proof. reflexivity. Qed.

Lemma status_of_with_sections : forall pid ss d,
  status_of pid (with_sections ss d) = status_of pid d.
Proof. reflexivity. Qed.

Lemma status_of_update_same : forall pid st r d,
  status_of pid (update_project_status pid st r d)
  = match r with
    | Accepted => option_map (fun _ => st) (status_of pid d)
    | Rejected => status_of pid d
    end.
Proof.
  intros pid st [|] d; [|reflexivity].
  unfold status_of; rewrite load_project_update_same.
  destruct (load_project pid d); reflexivity.
Qed.

(** The status a run of the generate action leaves behind, for the project
    it runs on and for every other project. *)
Lemma generateAllContent_status : forall pid secs w1 up w2 d,
  load_project pid d <> None ->
  status_of pid (generateAllContent (load_project pid d) pid secs w1 up w2 d)
  = match w2 with
    | Accepted => Some (match up with Some _ => Completed | None => Draft end)
    | Rejected =>
        match w1 with
        | Accepted => Some Generating
        | Rejected => status_of pid d
        end
    end /\
  (forall q, q <> pid ->
     status_of q (generateAllContent (load_project pid d) pid secs w1 up w2 d)
     = status_of q d).
Proof.
  intros pid secs w1 up w2 d Hp.
  destruct (load_project pid d) as [p|] eqn:Hl; [|congruence].
  unfold generateAllContent, generate_content_fn.
  assert (Hs : status_of pid d = Some (p_status p)) by (unfold status_of; rewrite Hl; reflexivity).
  split.
  - destruct up as [g|].
    + rewrite status_of_update_same, status_of_with_sections, status_of_update_same, Hs.
      destruct w1, w2; reflexivity.
    + rewrite status_of_update_same, status_of_update_same, Hs.
      destruct w1, w2; reflexivity.
  - intros q Hq; destruct up as [g|]; unfold status_of.
    + rewrite load_project_update_other by exact Hq.
      rewrite load_project_with_sections, load_project_update_other by exact Hq.
      reflexivity.
    + rewrite !load_project_update_other by exact Hq; reflexivity.
Qed.

(** C2 (counterexample).  "Whenever the upstream call fails, the status
    afterwards is draft" fails: the rollback write's error is not read, so
    when the store rejects it the status stays at generating. *)
Lemma generateAllContent_rollback_rejected :
  ~ (forall pid secs w1 w2 d, load_project pid d <> None ->
       status_of pid (generateAllContent (load_project pid d) pid secs w1 None w2 d)
       = Some Draft).
Proof.
  intros H.
  specialize (H 0 [] Accepted Rejected db_one_project ltac:(discriminate)).
  vm_compute in H; discriminate H.
Qed.

(** C2 (amended).  When the upstream call fails, the action's last write
    sets the status to draft: if the store accepts it the status reads
    draft afterwards; if it rejects it the status is what the first write
    left (generating when that write was accepted). *)
Theorem generateAllContent_failure_rolls_back_to_draft : forall pid secs w1 w2 d,
  load_project pid d <> None ->
  status_of pid (generateAllContent (load_project pid d) pid secs w1 None w2 d)
  = match w2 with
    | Accepted => Some Draft
    | Rejected =>
        match w1 with
        | Accepted => Some Generating
        | Rejected => status_of pid d
        end
    end.
Proof.
  intros pid secs w1 w2 d Hp.
  exact (proj1 (generateAllContent_status pid secs w1 None w2 d Hp)).
Qed.

Lemma generateAllContent_failure_rolls_back_to_draft_witness :
  load_project 0 db_one_project <> None /\
  status_of 0 (generateAllContent (load_project 0 db_one_project) 0 []
                 Accepted None Accepted db_one_project) = Some Draft.
Proof.
  split; [discriminate|].
  exact (generateAllContent_failure_rolls_back_to_draft 0 [] Accepted Accepted
           db_one_project ltac:(discriminate)).
Defined.

(** C7 (counterexample).  Counted write by write, a transition outside
    draft to generating, generating to completed and generating to draft
    happens on a reachable store: a project is created, the Generate button
    is pressed, the [generating] write is rejected, the upstream call
    succeeds and the accepted [completed] write moves the project from
    draft straight to completed. *)
Lemma status_draft_to_completed :
  ~ (forall d, reachable d -> forall pid w1 up w2,
       existsb s_is_generated (load_sections pid d) = false ->
       forall i x y s s',
       nth_error (generateAllContent_writes (load_project pid d) pid
                    (load_sections pid d) w1 up w2 d) i = Some x ->
       nth_error (generateAllContent_writes (load_project pid d) pid
                    (load_sections pid d) w1 up w2 d) (S i) = Some y ->
       status_of pid x = Some s -> status_of pid y = Some s' ->
       spec_allowed_transition s s' = true).
Proof.
  intros H.
  pose proof (reachable_step _ _ reachable_empty
                (step_create (Some 7) cfg_ev Accepted Accepted empty_db)) as Hr.
  pose proof (H _ Hr 0 Rejected (Some (fun _ => "text"%string)) Accepted
                ltac:(vm_compute; reflexivity) 2) as H2.
  vm_compute in H2.
  specialize (H2 _ _ Draft Completed eq_refl eq_refl eq_refl eq_refl).
  discriminate H2.
Qed.

Lemma handleSubmit_projects : forall user c w1 w2 d,
  exists extra, projects (fst (handleSubmit user c w1 w2 d)) = projects d ++ extra /\
                Forall (fun p => p_status p = Draft) extra.
Proof.
  intros user c w1 w2 d; unfold handleSubmit.
  destruct (is_blank (cfg_topic c) || existsb is_blank (cfg_sections c));
    [exists []; rewrite app_nil_r; auto|].
  destruct user as [uid|]; [|exists []; rewrite app_nil_r; auto].
  destruct w1; [|exists []; rewrite app_nil_r; auto].
  exists [mkProject (next_uuid d) uid (cfg_document_type c) (trim (cfg_topic c)) Draft].
  split; [|repeat constructor].
  destruct w2; reflexivity.
Qed.

Lemma handleSubmit_created : forall user c w1 w2 d d' pid,
  handleSubmit user c w1 w2 d = (d', SubmitCreated pid) ->
  exists uid, user = Some uid /\ w1 = Accepted /\ w2 = Accepted /\ pid = next_uuid d /\
    d' = insert_sections (sectionsData pid (cfg_sections c)) Accepted
           (fst (insert_project uid (cfg_document_type c) (trim (cfg_topic c)) Draft d)).
Proof.
  intros user c w1 w2 d d' pid H; unfold handleSubmit in H.
  destruct (is_blank (cfg_topic c) || existsb is_blank (cfg_sections c)); [discriminate|].
  destruct user as [uid|]; [|discriminate].
  destruct w1; [|discriminate].
  destruct w2; [|discriminate].
  simpl in H; injection H as <- <-.
  exists uid; repeat split.
Qed.

Lemma refine_content_projects : forall key sid pr cur t up w1 w2 d,
  projects (fst (refine_content key sid pr cur t up w1 w2 d)) = projects d.
Proof.
  intros key sid pr cur t up w1 w2 d; unfold refine_content.
  destruct key; [|reflexivity]; destruct up; [|reflexivity].
  destruct w1, w2; reflexivity.
Qed.

Lemma refineSection_projects : forall prompt secs sid key up w1 w2 d,
  projects (fst (refineSection prompt secs sid key up w1 w2 d)) = projects d.
Proof.
  intros prompt secs sid key up w1 w2 d; unfold refineSection.
  destruct prompt as [pr|]; [|reflexivity].
  destruct (is_blank pr); [reflexivity|].
  destruct (find _ secs) as [s|]; [|reflexivity].
  pose proof (refine_content_projects key sid pr (s_content s) (s_title s) up w1 w2 d) as E.
  destruct (refine_content _ _ _ _ _ _ _ _ _) as [d' [m|m]]; exact E.
Qed.

Lemma upsert_feedback_projects_sections : forall fp r d,
  projects (upsert_feedback fp r d) = projects d /\
  sections (upsert_feedback fp r d) = sections d /\
  refinement_history (upsert_feedback fp r d) = refinement_history d.
Proof. intros fp [|] d; repeat split. Qed.

Lemma saveComment_frame : forall comment sid r d,
  projects (saveComment comment sid r d) = projects d /\
  sections (saveComment comment sid r d) = sections d /\
  refinement_history (saveComment comment sid r d) = refinement_history d.
Proof.
  intros [c|] sid r d; unfold saveComment; [|repeat split].
  destruct (is_blank c); [repeat split|apply upsert_feedback_projects_sections].
Qed.

Lemma status_of_update_accepted : forall pid st d,
  status_of pid
    (with_projects
       (map (fun p => if p_id p =? pid then set_status st p else p) (projects d)) d)
  = option_map (fun _ => st) (status_of pid d).
Proof. intros pid st d; exact (status_of_update_same pid st Accepted d). Qed.

Lemma generate_writes_allowed : forall pid secs up w2 d,
  status_of pid d = Some Draft \/ status_of pid d = Some Generating ->
  forall i x y s s',
  nth_error (generateAllContent_writes (load_project pid d) pid secs Accepted up w2 d) i
    = Some x ->
  nth_error (generateAllContent_writes (load_project pid d) pid secs Accepted up w2 d)
    (S i) = Some y ->
  status_of pid x = Some s -> status_of pid y = Some s' ->
  spec_allowed_transition s s' = true.
Proof.
  intros pid secs up w2 d Hs i x y s s' Hx Hy Hsx Hsy.
  unfold generateAllContent_writes in Hx, Hy.
  destruct (load_project pid d) as [p|] eqn:E;
    [|unfold status_of in Hs; rewrite E in Hs; destruct Hs; discriminate].
  unfold generate_content_fn in Hx, Hy.
  destruct up as [gen|]; cbv beta iota zeta in Hx, Hy;
    destruct i as [|[|[|[|i]]]]; cbn [nth_error] in Hx, Hy;
    try (destruct i; discriminate); try discriminate;
    injection Hx as <-; injection Hy as <-;
    repeat (rewrite status_of_update_same in Hsy
            || rewrite status_of_update_accepted in Hsy
            || rewrite status_of_with_sections in Hsy);
    repeat (rewrite status_of_update_same in Hsx
            || rewrite status_of_update_accepted in Hsx
            || rewrite status_of_with_sections in Hsx);
    destruct Hs as [Hs|Hs]; rewrite ?Hs in Hsx; rewrite ?Hs in Hsy;
    destruct w2; simpl in Hsx, Hsy;
    injection Hsx as <-; injection Hsy as <-; reflexivity.
Qed.

(** C7 (amended).  Every project is created in draft; only the generate
    action writes a status (creation only appends draft projects, the
    other actions leave the projects table alone).  A run of the generate
    action ends, when the store accepts its final write, in completed after
    an upstream success and in draft after a failure; when that write is
    rejected the status is generating if the first write was accepted and
    otherwise unchanged.  The writes do not depend on the current status,
    and no other project's status moves.  Counted write by write, a run
    whose [generating] write is accepted, on a project in draft or
    generating, only takes the transitions draft to generating,
    generating to completed and generating to draft (or keeps the
    status). *)
Theorem project_status_lifecycle :
  (forall user c w1 w2 d d' pid,
     handleSubmit user c w1 w2 d = (d', SubmitCreated pid) ->
     exists p, projects d' = projects d ++ [p] /\ p_id p = pid /\ p_status p = Draft) /\
  (forall user c w1 w2 d,
     exists extra, projects (fst (handleSubmit user c w1 w2 d)) = projects d ++ extra /\
                   Forall (fun p => p_status p = Draft) extra) /\
  (forall prompt secs sid key up w1 w2 d,
     projects (fst (refineSection prompt secs sid key up w1 w2 d)) = projects d) /\
  (forall sid liked r d, projects (handleFeedback sid liked r d) = projects d) /\
  (forall comment sid r d, projects (saveComment comment sid r d) = projects d) /\
  (forall pid secs w1 up w2 d,
     load_project pid d <> None ->
     status_of pid (generateAllContent (load_project pid d) pid secs w1 up w2 d)
     = match w2 with
       | Accepted => Some (match up with Some _ => Completed | None => Draft end)
       | Rejected =>
           match w1 with
           | Accepted => Some Generating
           | Rejected => status_of pid d
           end
       end /\
     (forall q, q <> pid ->
        status_of q (generateAllContent (load_project pid d) pid secs w1 up w2 d)
        = status_of q d)) /\
  (forall ps pid secs w1 up w2 d,
     last (generateAllContent_writes ps pid secs w1 up w2 d) d
     = generateAllContent ps pid secs w1 up w2 d) /\
  (forall pid secs up w2 d,
     status_of pid d = Some Draft \/ status_of pid d = Some Generating ->
     forall i x y s s',
     nth_error (generateAllContent_writes (load_project pid d) pid secs Accepted up w2 d) i
       = Some x ->
     nth_error (generateAllContent_writes (load_project pid d) pid secs Accepted up w2 d)
       (S i) = Some y ->
     status_of pid x = Some s -> status_of pid y = Some s' ->
     spec_allowed_transition s s' = true).
Proof.
  split; [|split; [|split; [|split; [|split; [|split; [|split]]]]]].
  - intros user c w1 w2 d d' pid H.
    apply handleSubmit_created in H as (uid & _ & _ & _ & -> & ->).
    eexists; split; [reflexivity|split; reflexivity].
  - apply handleSubmit_projects.
  - apply refineSection_projects.
  - intros sid liked r d; apply upsert_feedback_projects_sections.
  - intros comment sid r d; apply saveComment_frame.
  - apply generateAllContent_status.
  - intros [p|] pid secs w1 [gen|] w2 d; reflexivity.
  - apply generate_writes_allowed.
Qed.

Lemma project_status_lifecycle_witness :
  handleSubmit (Some 7) cfg_ev Accepted Accepted empty_db
    = (fst (handleSubmit (Some 7) cfg_ev Accepted Accepted empty_db), SubmitCreated 0) /\
  (exists p, projects (fst (handleSubmit (Some 7) cfg_ev Accepted Accepted empty_db))
               = projects empty_db ++ [p] /\ p_id p = 0 /\ p_status p = Draft) /\
  load_project 0 db_one_project <> None /\
  status_of 0 (generateAllContent (load_project 0 db_one_project) 0 []
                 Accepted (Some (fun _ => "text"%string)) Accepted db_one_project)
  = Some Completed /\
  spec_allowed_transition Draft Generating = true.
Proof.
  assert (Hc : handleSubmit (Some 7) cfg_ev Accepted Accepted empty_db
    = (fst (handleSubmit (Some 7) cfg_ev Accepted Accepted empty_db), SubmitCreated 0))
    by reflexivity.
  split; [exact Hc|split; [exact (proj1 project_status_lifecycle _ _ _ _ _ _ _ Hc)|]].
  split; [discriminate|].
  split.
  - exact (proj1 (proj1 (proj2 (proj2 (proj2 (proj2 (proj2 project_status_lifecycle)))))
             0 [] Accepted (Some (fun _ => "text"%string)) Accepted db_one_project
             ltac:(discriminate))).
  - exact (proj2 (proj2 (proj2 (proj2 (proj2 (proj2 (proj2 project_status_lifecycle))))))
             0 [] (Some (fun _ => "text"%string)) Accepted db_one_project
             (or_introl eq_refl) 0 db_one_project
             (update_project_status 0 Generating Accepted db_one_project)
             Draft Generating eq_refl eq_refl eq_refl eq_refl).
Defined.

Lemma section_contents_update : forall sid c ss,
  map s_content (filter (fun s => s_id s =? sid)
                   (map (fun s => if s_id s =? sid then set_content c s else s) ss))
  = map (fun _ => Some c) (filter (fun s => s_id s =? sid) ss).
Proof.
  intros sid c ss; induction ss as [|s ss IH]; [reflexivity|]; simpl.
  destruct (s_id s =? sid) eqn:E; simpl; rewrite ?E; simpl; [rewrite IH; reflexivity|exact IH].
Qed.

(** When the store accepts every write, two refine calls on one section
    append two audit rows in call order, and the stored content of that
    section is the second call's result. *)
Lemma refine_twice_accepted : forall key sid p1 p2 cur1 cur2 t c1 c2 d,
  key <> None ->
  let d1 := fst (refine_content key sid p1 cur1 t (Some c1) Accepted Accepted d) in
  let d2 := fst (refine_content key sid p2 cur2 t (Some c2) Accepted Accepted d1) in
  map (fun r => (rh_section_id r, rh_prompt r, rh_previous_content r, rh_new_content r))
    (refinement_history d2)
  = map (fun r => (rh_section_id r, rh_prompt r, rh_previous_content r, rh_new_content r))
      (refinement_history d) ++ [(sid, p1, cur1, c1); (sid, p2, cur2, c2)] /\
  map s_content (filter (fun s => s_id s =? sid) (sections d2))
  = map (fun _ => Some c2) (filter (fun s => s_id s =? sid) (sections d)).
Proof.
  intros key sid p1 p2 cur1 cur2 t c1 c2 d Hk.
  destruct key as [k|]; [|congruence]; simpl.
  split.
  - rewrite <- app_assoc, !map_app; reflexivity.
  - rewrite section_contents_update.
    induction (sections d) as [|s ss IH]; [reflexivity|]; simpl.
    destruct (s_id s =? sid) eqn:E; simpl; rewrite ?E; simpl;
      [rewrite IH; reflexivity|exact IH].
Qed.

(** C3 (code_bug).  A refine call whose audit-row insert the store rejects
    is still reported as a success: the section's content changes and no
    refinement_history row exists. *)
Lemma refine_success_without_history_row :
  let r := refineSection (Some "shorter"%string) (load_sections 0 db_refine) 1
             (Some "key"%string) (Some "new text"%string) Rejected Accepted db_refine in
  snd r = RefineDone /\
  refinement_history (fst r) = [] /\
  sections (fst r) = [mkSection 1 0 0 "Overview" (Some "new text"%string) true].
Proof. vm_compute; repeat split. Qed.

(** C9.  The refine-content response depends only on the API key and on
    the upstream call, never on the answers to the two writes; so a call
    whose writes are both rejected reports success and leaves the store as
    it was: no audit row, content unchanged. *)
Theorem refine_content_reports_upstream_only :
  (forall key sid pr cur t up w1 w2 d,
     snd (refine_content key sid pr cur t up w1 w2 d)
     = match key, up with
       | None, _ => RespError "LOVABLE_API_KEY not configured"
       | Some _, None => RespError "AI API error"
       | Some _, Some c => RespSuccess c
       end) /\
  (exists key sid pr cur t c w1 w2 d,
     refine_content key sid pr cur t (Some c) w1 w2 d = (d, RespSuccess c)).
Proof.
  split.
  - intros key sid pr cur t up w1 w2 d; unfold refine_content.
    destruct key; [|reflexivity]; destruct up; reflexivity.
  - exists (Some "key"%string), 1, "shorter"%string, (Some "old text"%string),
      "Overview"%string, "new text"%string, Rejected, Rejected, db_refine.
    reflexivity.
Qed.






Lemma materialize_fields : forall n rows,
  map s_order_index (materialize n rows) = map sr_order_index rows /\
  map s_project_id (materialize n rows) = map sr_project_id rows /\
  map s_title (materialize n rows) = map sr_title rows.
Proof.
  intros n rows; revert n; induction rows as [|r rows IH]; intros n; [repeat split|].
  simpl; destruct (IH (S n)) as (H1 & H2 & H3); rewrite H1, H2, H3; repeat split.
Qed.

Lemma sectionsData_fields_from : forall pid k ts,
  let rows := map (fun '(index, title) => mkSectionRow pid (trim title) index)
                (combine (seq k (List.length ts)) ts) in
  map sr_order_index rows = seq k (List.length ts) /\
  map sr_project_id rows = repeat pid (List.length ts) /\
  map sr_title rows = map trim ts.
Proof.
  intros pid k ts; revert k; induction ts as [|t ts IH]; intros k; [repeat split|].
  simpl; destruct (IH (S k)) as (H1 & H2 & H3); rewrite H1, H2, H3; repeat split.
Qed.

Lemma handleSubmit_sections : forall user c w1 w2 d,
  exists extra, sections (fst (handleSubmit user c w1 w2 d)) = sections d ++ extra.
Proof.
  intros user c w1 w2 d; unfold handleSubmit.
  destruct (is_blank (cfg_topic c) || existsb is_blank (cfg_sections c));
    [exists []; rewrite app_nil_r; reflexivity|].
  destruct user as [uid|]; [|exists []; rewrite app_nil_r; reflexivity].
  destruct w1; [|exists []; rewrite app_nil_r; reflexivity].
  destruct w2; simpl; [eexists; reflexivity|exists []; rewrite app_nil_r; reflexivity].
Qed.

Lemma update_project_status_sections : forall pid st r d,
  sections (update_project_status pid st r d) = sections d.
Proof. intros pid st [|] d; reflexivity. Qed.

Lemma generateAllContent_positions : forall ps pid secs w1 up w2 d,
  order_positions (generateAllContent ps pid secs w1 up w2 d) = order_positions d.
Proof.
  intros ps pid secs w1 up w2 d; unfold generateAllContent, order_positions.
  destruct ps; [|reflexivity].
  destruct up as [g|]; destruct w1, w2; simpl; try reflexivity;
    rewrite map_map; apply map_ext; intros s; destruct (existsb _ _); reflexivity.
Qed.

Lemma refineSection_positions : forall prompt secs sid key up w1 w2 d,
  order_positions (fst (refineSection prompt secs sid key up w1 w2 d)) = order_positions d.
Proof.
  intros prompt secs sid key up w1 w2 d; unfold refineSection.
  destruct prompt as [pr|]; [|reflexivity].
  destruct (is_blank pr); [reflexivity|].
  destruct (find _ secs) as [s|]; [|reflexivity].
  assert (H : order_positions (fst (refine_content key sid pr (s_content s) (s_title s)
                                      up w1 w2 d)) = order_positions d).
  { unfold refine_content; destruct key; [|reflexivity]; destruct up as [c|]; [|reflexivity].
    unfold order_positions; destruct w1, w2; simpl; try reflexivity;
      rewrite map_map; apply map_ext; intros x; destruct (s_id x =? sid); reflexivity. }
  destruct (refine_content _ _ _ _ _ _ _ _ _) as [d' [c|m]]; exact H.
Qed.

(** C4.  The sections a successful project creation inserts carry the
    order positions 0..n-1, each the index of its title in the form's list,
    with the project's id and the trimmed title; and no action ever changes
    or removes a section row's identity, project or order position, it can
    only append new rows, so positions are never renumbered. *)
Theorem sections_order_index_from_array_index :
  (forall user c w1 w2 d d' pid,
     handleSubmit user c w1 w2 d = (d', SubmitCreated pid) ->
     exists fresh, sections d' = sections d ++ fresh /\
       map s_order_index fresh = seq 0 (List.length (cfg_sections c)) /\
       map s_project_id fresh = repeat pid (List.length (cfg_sections c)) /\
       map s_title fresh = map trim (cfg_sections c)) /\
  (forall d d', step d d' -> exists extra, order_positions d' = order_positions d ++ extra).
Proof.
  split.
  - intros user c w1 w2 d d' pid H.
    apply handleSubmit_created in H as (uid & _ & _ & _ & -> & ->).
    eexists; split; [reflexivity|].
    rewrite (proj1 (materialize_fields _ _)), (proj1 (proj2 (materialize_fields _ _))),
      (proj2 (proj2 (materialize_fields _ _))).
    apply sectionsData_fields_from.
  - intros d d' Hs; destruct Hs.
    + destruct (handleSubmit_sections user c w1 w2 d) as [extra E].
      exists (map (fun s => (s_id s, s_project_id s, s_order_index s)) extra).
      unfold order_positions; rewrite E, map_app; reflexivity.
    + exists []; rewrite app_nil_r; apply generateAllContent_positions.
    + exists []; rewrite app_nil_r; apply refineSection_positions.
    + exists []; rewrite app_nil_r; unfold order_positions, handleFeedback.
      rewrite (proj1 (proj2 (upsert_feedback_projects_sections _ _ _))); reflexivity.
    + exists []; rewrite app_nil_r; unfold order_positions.
      rewrite (proj1 (proj2 (saveComment_frame _ _ _ _))); reflexivity.
Qed.

Lemma sections_order_index_from_array_index_witness :
  handleSubmit (Some 7) cfg_ev Accepted Accepted empty_db
    = (fst (handleSubmit (Some 7) cfg_ev Accepted Accepted empty_db), SubmitCreated 0) /\
  (exists fresh,
     sections (fst (handleSubmit (Some 7) cfg_ev Accepted Accepted empty_db))
       = sections empty_db ++ fresh /\
     map s_order_index fresh = seq 0 (List.length (cfg_sections cfg_ev)) /\
     map s_project_id fresh = repeat 0 (List.length (cfg_sections cfg_ev)) /\
     map s_title fresh = map trim (cfg_sections cfg_ev)) /\
  (exists extra,
     order_positions (handleFeedback 1 true Accepted db_refine)
     = order_positions db_refine ++ extra).
Proof.
  assert (Hc : handleSubmit (Some 7) cfg_ev Accepted Accepted empty_db
    = (fst (handleSubmit (Some 7) cfg_ev Accepted Accepted empty_db), SubmitCreated 0))
    by reflexivity.
  split; [exact Hc|split].
  - exact (proj1 sections_order_index_from_array_index _ _ _ _ _ _ _ Hc).
  - exact (proj2 sections_order_index_from_array_index _ _
             (step_feedback 1 true Accepted db_refine)).
Defined.

(** C6 (code_bug).  A like followed by a comment on the same section, both
    writes accepted, leaves two feedback rows for that section: neither
    upsert meets a conflict on the primary key, so each inserts. *)
Lemma feedback_then_comment_two_rows :
  feedback_rows (saveComment (Some "nice"%string) 1 Accepted
                   (handleFeedback 1 true Accepted db_refine))
  = [mkFeedback 2 1 (Some true) None; mkFeedback 3 1 None (Some "nice"%string)].
Proof. reflexivity. Qed.

(** C8.  Outline generation writes nothing to the store: it returns the
    store it was given, keeps the topic and the document kind, and replaces
    the page's titles by the outline when the topic is not blank and the
    call succeeds, leaving them as they were otherwise. *)
Theorem generateOutline_no_persistence : forall up c d,
  snd (generateOutline up c d) = d /\
  cfg_document_type (fst (generateOutline up c d)) = cfg_document_type c /\
  cfg_topic (fst (generateOutline up c d)) = cfg_topic c /\
  cfg_sections (fst (generateOutline up c d))
  = if is_blank (cfg_topic c) then cfg_sections c
    else match up with Some outline => outline | None => cfg_sections c end.
Proof.
  intros up c d; unfold generateOutline.
  destruct (is_blank (cfg_topic c)); [repeat split|].
  destruct up; repeat split.
Qed.

(** The remove button keeps at least one title. *)
Lemma removeSection_nonempty : forall index c,
  cfg_sections c <> [] -> cfg_sections (removeSection index c) <> [].
Proof.
  intros index c Hne; unfold removeSection.
  destruct (1 <? List.length (cfg_sections c)) eqn:Hlen; [|exact Hne].
  apply Nat.ltb_lt in Hlen; simpl.
  destruct (cfg_sections c) as [|x [|y rest]]; simpl in Hlen; try lia.
  destruct index as [|i]; simpl; discriminate.
Qed.

(** A created project's titles are all non-blank. *)
Lemma handleSubmit_created_titles : forall user c w1 w2 d d' pid,
  handleSubmit user c w1 w2 d = (d', SubmitCreated pid) ->
  existsb is_blank (cfg_sections c) = false.
Proof.
  intros user c w1 w2 d d' pid H; unfold handleSubmit in H.
  destruct (is_blank (cfg_topic c)); [discriminate|].
  destruct (existsb is_blank (cfg_sections c)); [discriminate|reflexivity].
Qed.

(** C10 (code_bug).  An outline call that returns an empty list empties the
    page's titles; the blank-title check holds vacuously, and the project is
    created with no section at all. *)
Lemma outline_empty_project_without_sections :
  let c := fst (generateOutline (Some [])
                  (mkConfig Docx "EV market analysis" [EmptyString]) empty_db) in
  cfg_sections c = [] /\
  handleSubmit (Some 7) c Accepted Accepted empty_db
  = (mkDb [mkProject 0 7 Docx "EV market analysis" Draft] [] [] [] 1, SubmitCreated 0).
Proof. split; reflexivity. Qed.

(** ** Further properties of the code *)

Lemma remove_index_from_past : forall k index l, index < k ->
  remove_index_from k index l = l.
Proof.
  intros k index l; revert k; induction l as [|x xs IH]; intros k Hk; [reflexivity|].
  simpl; replace (k =? index) with false by (symmetry; apply Nat.eqb_neq; lia).
  rewrite IH by lia; reflexivity.
Qed.

Lemma remove_index_from_split : forall k index l, k <= index ->
  remove_index_from k index l = firstn (index - k) l ++ skipn (S (index - k)) l.
Proof.
  intros k index l; revert k; induction l as [|x xs IH]; intros k Hk.
  - destruct (index - k); reflexivity.
  - simpl; destruct (Nat.eqb_spec k index) as [->|Hne].
    + rewrite Nat.sub_diag, remove_index_from_past by lia; reflexivity.
    + rewrite IH by lia.
      replace (index - k) with (S (index - S k)) by lia; reflexivity.
Qed.

(** [removeSection index] deletes exactly the title at [index] when more
    than one title is left (an index past the end deletes nothing), and
    does nothing when a single title is left. *)
Theorem removeSection_removes_index : forall index c,
  cfg_sections (removeSection index c)
  = if 1 <? List.length (cfg_sections c)
    then firstn index (cfg_sections c) ++ skipn (S index) (cfg_sections c)
    else cfg_sections c.
Proof.
  intros index c; unfold removeSection.
  destruct (1 <? List.length (cfg_sections c)); [|reflexivity].
  simpl; rewrite remove_index_from_split by lia; rewrite Nat.sub_0_r; reflexivity.
Qed.

Lemma set_nth_spec : forall l index v, index < List.length l ->
  List.length (set_nth index v l) = List.length l /\
  nth_error (set_nth index v l) index = Some v /\
  (forall j, j <> index -> nth_error (set_nth index v l) j = nth_error l j).
Proof.
  induction l as [|x xs IH]; intros index v Hi; simpl in Hi; [lia|].
  destruct index as [|i]; simpl.
  - split; [reflexivity|split; [reflexivity|]].
    intros [|j] Hj; [congruence|reflexivity].
  - destruct (IH i v ltac:(lia)) as (H1 & H2 & H3).
    split; [rewrite H1; reflexivity|split; [exact H2|]].
    intros [|j] Hj; [reflexivity|apply H3; lia].
Qed.

(** [updateSection index value] on a rendered index replaces that title and
    keeps the length and every other title. *)
Theorem updateSection_replaces_index : forall index v c,
  index < List.length (cfg_sections c) ->
  List.length (cfg_sections (updateSection index v c)) = List.length (cfg_sections c) /\
  nth_error (cfg_sections (updateSection index v c)) index = Some v /\
  (forall j, j <> index ->
     nth_error (cfg_sections (updateSection index v c)) j = nth_error (cfg_sections c) j).
Proof. intros index v c Hi; apply set_nth_spec, Hi. Qed.

Lemma updateSection_replaces_index_witness :
  1 < List.length (cfg_sections cfg_ev) /\
  nth_error (cfg_sections (updateSection 1 "Charging"%string cfg_ev)) 1
  = Some "Charging"%string.
Proof.
  split; [simpl; lia|].
  exact (proj1 (proj2 (updateSection_replaces_index 1 "Charging"%string cfg_ev
                         ltac:(simpl; lia)))).
Defined.

Lemma apply_config_action_nonempty : forall c a,
  cfg_sections c <> [] -> cfg_sections (apply_config_action c a) <> [].
Proof.
  intros c [|i|i v] Hne; simpl.
  - unfold addSection; simpl; destruct (cfg_sections c); discriminate.
  - apply removeSection_nonempty, Hne.
  - unfold updateSection; simpl.
    destruct (cfg_sections c) as [|x xs]; [congruence|].
    destruct i; discriminate.
Qed.

(** Starting from the page's initial state, no sequence of add, remove and
    edit actions empties the list of titles. *)
Theorem config_titles_never_empty : forall acts,
  cfg_sections (run_config_actions initial_config acts) <> [].
Proof.
  intros acts; unfold run_config_actions.
  assert (H : forall c, cfg_sections c <> [] ->
                cfg_sections (fold_left apply_config_action acts c) <> []).
  { induction acts as [|a acts IH]; intros c Hc; simpl; [exact Hc|].
    apply IH, apply_config_action_nonempty, Hc. }
  apply H; discriminate.
Qed.

(** After "Add Section" the form cannot be submitted until the new, empty
    title is filled in: submission is refused and nothing is written. *)
Theorem addSection_blocks_submit : forall user c w1 w2 d,
  handleSubmit user (addSection c) w1 w2 d = (d, SubmitInvalid).
Proof.
  intros user c w1 w2 d; unfold handleSubmit, addSection; simpl.
  assert (E : existsb is_blank (cfg_sections c ++ [EmptyString]) = true).
  { rewrite existsb_app; simpl; rewrite orb_true_r; reflexivity. }
  rewrite E, orb_true_r; reflexivity.
Qed.

Lemma drop_ws_head : forall l, head_not_ws (drop_ws l).
Proof.
  induction l as [|c l IH]; simpl; [exact I|].
  destruct (is_ws c) eqn:E; [exact IH|exact E].
Qed.

Lemma drop_ws_fixed : forall l, head_not_ws l -> drop_ws l = l.
Proof. intros [|c l] H; simpl in *; [reflexivity|rewrite H; reflexivity]. Qed.

Lemma drop_ws_snoc : forall xs h, is_ws h = false ->
  exists ys, drop_ws (xs ++ [h]) = ys ++ [h].
Proof.
  induction xs as [|x xs IH]; intros h Hh; simpl.
  - rewrite Hh; exists []; reflexivity.
  - destruct (is_ws x); [apply IH, Hh|exists (x :: xs); reflexivity].
Qed.

Lemma drop_ws_nil : forall l, drop_ws l = [] <-> forallb is_ws l = true.
Proof.
  induction l as [|c l IH]; simpl; [tauto|].
  destruct (is_ws c); simpl; [exact IH|split; discriminate].
Qed.

Lemma trim_list : forall s,
  list_ascii_of_string (trim s)
  = rev (drop_ws (rev (drop_ws (list_ascii_of_string s)))).
Proof. intros s; unfold trim; apply list_ascii_of_string_of_list_ascii. Qed.

(** The trimmed list starts with the first non-blank character, and it is
    empty exactly when nothing but blanks was there. *)
Lemma trim_list_shape : forall l,
  (drop_ws l = [] /\ rev (drop_ws (rev (drop_ws l))) = []) \/
  (exists h t, drop_ws l = h :: t /\ is_ws h = false /\
     exists u, rev (drop_ws (rev (drop_ws l))) = h :: u).
Proof.
  intros l; pose proof (drop_ws_head l) as Hh.
  destruct (drop_ws l) as [|h t] eqn:E; [left; split; reflexivity|right].
  exists h, t; split; [reflexivity|split; [exact Hh|]].
  simpl; destruct (drop_ws_snoc (rev t) h Hh) as [ys Hys]; rewrite Hys, rev_app_distr.
  exists (rev ys); reflexivity.
Qed.

(** JavaScript's [trim] as embedded: its result starts and ends with a
    non-blank character (or is empty), trimming twice is trimming once, and
    a string counts as blank exactly when all its characters are blanks. *)
Theorem trim_spec : forall s,
  head_not_ws (list_ascii_of_string (trim s)) /\
  head_not_ws (rev (list_ascii_of_string (trim s))) /\
  trim (trim s) = trim s /\
  (is_blank s = true <-> forallb is_ws (list_ascii_of_string s) = true).
Proof.
  intros s; rewrite trim_list.
  set (l := list_ascii_of_string s).
  assert (Hfront : head_not_ws (rev (drop_ws (rev (drop_ws l))))).
  { destruct (trim_list_shape l) as [[_ E]|(h & t & _ & Hh & u & E)]; rewrite E;
      [exact I|exact Hh]. }
  assert (Hback : head_not_ws (rev (rev (drop_ws (rev (drop_ws l)))))).
  { rewrite rev_involutive; apply drop_ws_head. }
  split; [exact Hfront|split; [exact Hback|split]].
  - unfold trim at 1; rewrite trim_list; fold l.
    rewrite (drop_ws_fixed _ Hfront).
    rewrite rev_involutive in Hback |- *.
    rewrite (drop_ws_fixed _ Hback).
    unfold trim; reflexivity.
  - unfold is_blank, trim; fold l.
    rewrite <- drop_ws_nil, String.eqb_eq.
    destruct (trim_list_shape l) as [[E1 E2]|(h & t & E1 & _ & u & E2)];
      rewrite E2, E1; simpl; split; congruence.
Qed.

Lemma Forall_lt_weaken : forall {A} (f : A -> nat) n m l,
  Forall (fun x => f x < n) l -> n <= m -> Forall (fun x => f x < m) l.
Proof. intros A f n m l H Hle; eapply Forall_impl; [|exact H]; simpl; intros; lia. Qed.

Lemma wf_transfer : forall d d',
  next_uuid d' = next_uuid d ->
  map p_id (projects d') = map p_id (projects d) ->
  order_positions d' = order_positions d ->
  map rh_id (refinement_history d') = map rh_id (refinement_history d) ->
  map fb_id (feedback_rows d') = map fb_id (feedback_rows d) ->
  wf d -> wf d'.
Proof.
  intros d d' En Ep Es Er Ef (Hp & Hs & Hr & Hf); unfold order_positions in Es.
  unfold wf; rewrite En.
  assert (G : forall {A B} (f : A -> B) (P : B -> Prop) l l',
             map f l' = map f l -> Forall (fun x => P (f x)) l -> Forall (fun x => P (f x)) l').
  { intros A B f P l l' E H; apply Forall_map in H; apply Forall_map; rewrite E; exact H. }
  split; [exact (G _ _ p_id (fun i => i < next_uuid d) _ _ Ep Hp)|].
  split; [exact (G _ _ (fun s => (s_id s, s_project_id s, s_order_index s))
                   (fun t => fst (fst t) < next_uuid d /\ snd (fst t) < next_uuid d)
                   _ _ Es Hs)|].
  split; [exact (G _ _ rh_id (fun i => i < next_uuid d) _ _ Er Hr)|].
  exact (G _ _ fb_id (fun i => i < next_uuid d) _ _ Ef Hf).
Qed.

Lemma materialize_ids : forall k rows pid,
  Forall (fun r => sr_project_id r = pid) rows ->
  Forall (fun s => s_id s < k + List.length rows /\ s_project_id s = pid)
    (materialize k rows).
Proof.
  intros k rows pid; revert k; induction rows as [|r rows IH]; intros k H; simpl;
    [constructor|].
  inversion H as [|? ? Hr Hrs]; subst.
  constructor; [simpl; split; [lia|reflexivity]|].
  eapply Forall_impl; [|apply (IH (S k) Hrs)]; simpl; intros s [H1 H2]; split; lia.
Qed.

Lemma sectionsData_project : forall pid ts,
  Forall (fun r => sr_project_id r = pid) (sectionsData pid ts).
Proof.
  intros pid ts; apply Forall_forall; intros r Hr.
  destruct (sectionsData_fields_from pid 0 ts) as (_ & Hp & _).
  apply (in_map sr_project_id) in Hr; unfold sectionsData in Hr; rewrite Hp in Hr.
  apply repeat_spec in Hr; exact Hr.
Qed.

Lemma handleSubmit_wf : forall user c w1 w2 d, wf d -> wf (fst (handleSubmit user c w1 w2 d)).
Proof.
  intros user c w1 w2 d Hwf; unfold handleSubmit.
  destruct (is_blank (cfg_topic c) || existsb is_blank (cfg_sections c)); [exact Hwf|].
  destruct user as [uid|]; [|exact Hwf].
  destruct w1; [|exact Hwf].
  destruct Hwf as (Hp & Hs & Hr & Hf).
  set (n := next_uuid d).
  assert (Hp' : Forall (fun p => p_id p < S n)
                  (projects d ++ [mkProject n uid (cfg_document_type c) (trim (cfg_topic c)) Draft])).
  { apply Forall_app; split; [apply (Forall_lt_weaken _ n); [exact Hp|lia]|].
    repeat constructor; simpl; lia. }
  destruct w2; unfold wf; simpl; fold n.
  - pose proof (materialize_ids (S n) (sectionsData n (cfg_sections c)) n
                  (sectionsData_project n (cfg_sections c))) as Hm.
    set (len := List.length (sectionsData n (cfg_sections c))) in *.
    split; [apply (Forall_lt_weaken _ (S n)); [exact Hp'|lia]|].
    split.
    + apply Forall_app; split.
      * eapply Forall_impl; [|exact Hs]; simpl; intros s [H1 H2]; split; lia.
      * eapply Forall_impl; [|exact Hm]; simpl; intros s [H1 H2]; split; lia.
    + split; [apply (Forall_lt_weaken _ n); [exact Hr|lia]|].
      apply (Forall_lt_weaken _ n); [exact Hf|lia].
  - split; [exact Hp'|].
    split; [eapply Forall_impl; [|exact Hs]; simpl; intros s [H1 H2]; split; lia|].
    split; [apply (Forall_lt_weaken _ n); [exact Hr|lia]|].
    apply (Forall_lt_weaken _ n); [exact Hf|lia].
Qed.

Lemma generateAllContent_wf : forall ps pid secs w1 up w2 d,
  wf d -> wf (generateAllContent ps pid secs w1 up w2 d).
Proof.
  intros ps pid secs w1 up w2 d; apply wf_transfer;
    [| |apply generateAllContent_positions| |];
    unfold generateAllContent; destruct ps; try reflexivity;
    destruct up, w1, w2; simpl; try reflexivity;
    rewrite ?map_map; apply map_ext; intros x;
    repeat match goal with |- context [if ?b then _ else _] => destruct b end;
    reflexivity.
Qed.

Lemma refine_content_wf : forall key sid pr cur t up w1 w2 d,
  wf d -> wf (fst (refine_content key sid pr cur t up w1 w2 d)).
Proof.
  intros key sid pr cur t up w1 w2 d Hwf; unfold refine_content.
  destruct key; [|exact Hwf]; destruct up as [c|]; [|exact Hwf].
  set (d1 := insert_refinement sid pr cur c w1 d).
  assert (H1 : wf d1).
  { unfold d1, insert_refinement; destruct w1; [|exact Hwf].
    destruct Hwf as (Hp & Hs & Hr & Hf); unfold wf; simpl.
    split; [apply (Forall_lt_weaken _ (next_uuid d)); [exact Hp|lia]|].
    split; [eapply Forall_impl; [|exact Hs]; simpl; intros x [? ?]; split; lia|].
    split; [apply Forall_app; split;
              [apply (Forall_lt_weaken _ (next_uuid d)); [exact Hr|lia]|];
            repeat constructor; simpl; lia|].
    apply (Forall_lt_weaken _ (next_uuid d)); [exact Hf|lia]. }
  simpl; revert H1; apply wf_transfer; unfold update_section_content; destruct w2;
    try reflexivity.
  unfold order_positions; simpl; rewrite map_map; apply map_ext; intros x.
  destruct (s_id x =? sid); reflexivity.
Qed.

Lemma refineSection_wf : forall prompt secs sid key up w1 w2 d,
  wf d -> wf (fst (refineSection prompt secs sid key up w1 w2 d)).
Proof.
  intros prompt secs sid key up w1 w2 d Hwf; unfold refineSection.
  destruct prompt as [pr|]; [|exact Hwf].
  destruct (is_blank pr); [exact Hwf|].
  destruct (find _ secs) as [s|]; [|exact Hwf].
  pose proof (refine_content_wf key sid pr (s_content s) (s_title s) up w1 w2 d Hwf) as H.
  destruct (refine_content _ _ _ _ _ _ _ _ _) as [d' [c|m]]; exact H.
Qed.

Lemma upsert_feedback_wf : forall fp r d, wf d -> wf (upsert_feedback fp r d).
Proof.
  intros fp [|] d Hwf; [|exact Hwf]; unfold upsert_feedback.
  destruct Hwf as (Hp & Hs & Hr & Hf); unfold wf; simpl.
  split; [apply (Forall_lt_weaken _ (next_uuid d)); [exact Hp|lia]|].
  split; [eapply Forall_impl; [|exact Hs]; simpl; intros s [? ?]; split; lia|].
  split; [apply (Forall_lt_weaken _ (next_uuid d)); [exact Hr|lia]|].
  destruct (existsb _ _).
  - apply Forall_map; eapply Forall_impl; [|exact Hf]; simpl; intros f Hlt.
    destruct (fb_id f =? next_uuid d); simpl; lia.
  - apply Forall_app; split; [apply (Forall_lt_weaken _ (next_uuid d)); [exact Hf|lia]|].
    repeat constructor; simpl; lia.
Qed.

Lemma step_wf : forall d d', step d d' -> wf d -> wf d'.
Proof.
  intros d d' Hs; destruct Hs; intros Hwf.
  - apply handleSubmit_wf, Hwf.
  - apply generateAllContent_wf, Hwf.
  - apply refineSection_wf, Hwf.
  - apply upsert_feedback_wf, Hwf.
  - destruct comment as [c|]; [|exact Hwf]; unfold saveComment.
    destruct (is_blank c); [exact Hwf|apply upsert_feedback_wf, Hwf].
Qed.

(** Every store reached from the empty one by user actions keeps each row
    id (projects, sections and their project references, audit rows,
    feedback rows) below the id supply, so a newly drawn id never collides
    with an existing row. *)
Theorem reachable_wf : forall d, reachable d -> wf d.
Proof.
  intros d Hr; induction Hr as [|d d' _ IH Hs].
  - repeat split; constructor.
  - exact (step_wf d d' Hs IH).
Qed.

Lemma upsert_feedback_appends : forall fp d, wf d ->
  feedback_rows (upsert_feedback fp Accepted d)
  = feedback_rows d
      ++ [mkFeedback (next_uuid d) (fp_section_id fp) (fp_is_liked fp) (fp_comment fp)].
Proof.
  intros fp d (_ & _ & _ & Hf); simpl.
  replace (existsb (fun f => fb_id f =? next_uuid d) (feedback_rows d)) with false;
    [reflexivity|].
  symmetry; apply not_true_iff_false; intros Hex.
  apply existsb_exists in Hex as (f & Hin & Heq).
  apply Nat.eqb_eq in Heq; rewrite Forall_forall in Hf; specialize (Hf f Hin); lia.
Qed.

(** In a well-formed store, an accepted like/dislike write and an accepted
    comment write each append one new feedback row (the comment trimmed
    and non-blank) and change no existing row: feedback rows for a section
    accumulate. *)
Theorem feedback_writes_append : forall d sid, wf d ->
  (forall liked,
     feedback_rows (handleFeedback sid liked Accepted d)
     = feedback_rows d ++ [mkFeedback (next_uuid d) sid (Some liked) None]) /\
  (forall comment,
     is_blank comment = false ->
     feedback_rows (saveComment (Some comment) sid Accepted d)
     = feedback_rows d ++ [mkFeedback (next_uuid d) sid None (Some (trim comment))] /\
     trim comment <> EmptyString).
Proof.
  intros d sid Hwf; split.
  - intros liked; apply upsert_feedback_appends, Hwf.
  - intros comment Hb; unfold saveComment; rewrite Hb; split.
    + apply upsert_feedback_appends, Hwf.
    + unfold is_blank in Hb; intros E; rewrite E in Hb; discriminate.
Qed.

Lemma feedback_writes_append_witness :
  wf db_refine /\ is_blank "nice"%string = false /\
  feedback_rows (saveComment (Some "nice"%string) 1 Accepted db_refine)
  = feedback_rows db_refine ++ [mkFeedback (next_uuid db_refine) 1 None
                                  (Some (trim "nice"%string))].
Proof.
  assert (Hwf : wf db_refine) by (repeat constructor).
  split; [exact Hwf|split; [reflexivity|]].
  exact (proj1 (proj2 (feedback_writes_append db_refine 1 Hwf) "nice"%string eq_refl)).
Defined.

Lemma insert_by_order_perm : forall s l, Permutation (insert_by_order s l) (s :: l).
Proof.
  intros s l; induction l as [|x xs IH]; simpl; [reflexivity|].
  destruct (s_order_index s <=? s_order_index x); [reflexivity|].
  rewrite IH; apply perm_swap.
Qed.

Lemma sort_by_order_perm : forall l, Permutation (sort_by_order l) l.
Proof.
  induction l as [|s l IH]; simpl; [reflexivity|].
  rewrite insert_by_order_perm, IH; reflexivity.
Qed.

(** [loadProject] lists every section of the project exactly once (a
    reordering of the project's rows) and in non-decreasing order
    position. *)
Theorem load_sections_sorted_perm : forall pid d,
  Permutation (load_sections pid d) (filter (fun s => s_project_id s =? pid) (sections d)) /\
  Sorted le (map s_order_index (load_sections pid d)).
Proof.
  intros pid d; split; [apply sort_by_order_perm|apply sort_by_order_sorted].
Qed.

Lemma sort_by_order_sorted_id : forall l,
  Sorted le (map s_order_index l) -> sort_by_order l = l.
Proof.
  induction l as [|x xs IH]; intros Hs; [reflexivity|]; simpl.
  apply Sorted_inv in Hs as [Hxs Hhd]; rewrite (IH Hxs).
  destruct xs as [|y ys]; [reflexivity|]; simpl.
  simpl in Hhd; apply HdRel_inv in Hhd.
  apply Nat.leb_le in Hhd; rewrite Hhd; reflexivity.
Qed.

Lemma seq_sorted : forall k n, Sorted le (seq k n).
Proof.
  intros k n; revert k; induction n as [|n IH]; intros k; simpl; [constructor|].
  constructor; [apply IH|destruct n; simpl; constructor; lia].
Qed.

Lemma filter_project_below : forall n l,
  Forall (fun s => s_project_id s < n) l ->
  filter (fun s => s_project_id s =? n) l = [].
Proof.
  intros n l H; induction H as [|s l Hs _ IH]; [reflexivity|]; simpl.
  replace (s_project_id s =? n) with false by (symmetry; apply Nat.eqb_neq; lia).
  exact IH.
Qed.

Lemma filter_project_all : forall n l,
  Forall (fun s => s_project_id s = n) l ->
  filter (fun s => s_project_id s =? n) l = l.
Proof.
  intros n l H; induction H as [|s l Hs _ IH]; [reflexivity|]; simpl.
  rewrite Hs, Nat.eqb_refl, IH; reflexivity.
Qed.

Lemma find_project_fresh : forall n ps q,
  Forall (fun p => p_id p < n) ps -> p_id q = n ->
  find (fun p => p_id p =? n) (ps ++ [q]) = Some q.
Proof.
  intros n ps q H Hq; induction H as [|p ps Hp _ IH]; simpl.
  - rewrite Hq, Nat.eqb_refl; reflexivity.
  - replace (p_id p =? n) with false by (symmetry; apply Nat.eqb_neq; lia); exact IH.
Qed.

Lemma materialize_fresh_fields : forall k rows,
  Forall (fun s => s_content s = None /\ s_is_generated s = false) (materialize k rows).
Proof.
  intros k rows; revert k; induction rows as [|r rows IH]; intros k; simpl;
    constructor; [split; reflexivity|apply IH].
Qed.

(** Creating a project and opening it in the editor is a round trip: in a
    well-formed store, after a successful [handleSubmit] the editor loads
    the new draft project with the trimmed topic, and exactly one section
    per form title, in form order, titled with the trimmed title, at order
    positions 0..n-1, with no content and not generated. *)
Theorem create_then_load : forall user c w1 w2 d d' pid,
  wf d -> handleSubmit user c w1 w2 d = (d', SubmitCreated pid) ->
  (exists uid, user = Some uid /\
     load_project pid d' = Some (mkProject pid uid (cfg_document_type c)
                                   (trim (cfg_topic c)) Draft)) /\
  map s_title (load_sections pid d') = map trim (cfg_sections c) /\
  map s_order_index (load_sections pid d') = seq 0 (List.length (cfg_sections c)) /\
  Forall (fun s => s_content s = None /\ s_is_generated s = false) (load_sections pid d').
Proof.
  intros user c w1 w2 d d' pid (Hp & Hs & _ & _) H.
  apply handleSubmit_created in H as (uid & -> & -> & -> & -> & ->).
  set (n := next_uuid d).
  set (rows := sectionsData n (cfg_sections c)).
  destruct (materialize_fields (S n) rows) as (Ho & Hpj & Ht).
  destruct (sectionsData_fields_from n 0 (cfg_sections c)) as (Ro & Rp & Rt).
  fold (sectionsData n (cfg_sections c)) in Ro, Rp, Rt; fold rows in Ro, Rp, Rt.
  assert (Hload : load_sections n
            (insert_sections rows Accepted
               (fst (insert_project uid (cfg_document_type c) (trim (cfg_topic c)) Draft d)))
          = materialize (S n) rows).
  { unfold load_sections; simpl; rewrite filter_app.
    rewrite filter_project_below
      by (eapply Forall_impl; [|exact Hs]; simpl; intros s [_ Hlt]; exact Hlt).
    rewrite filter_project_all.
    - simpl; apply sort_by_order_sorted_id; rewrite Ho, Ro; apply seq_sorted.
    - eapply Forall_impl; [|apply materialize_ids, sectionsData_project].
      simpl; intros s [_ Heq]; exact Heq. }
  rewrite Hload.
  split; [exists uid; split; [reflexivity|]|].
  - unfold load_project; simpl; apply find_project_fresh; [exact Hp|reflexivity].
  - split; [rewrite Ht, Rt; reflexivity|].
    split; [rewrite Ho, Ro; reflexivity|apply materialize_fresh_fields].
Qed.

Lemma create_then_load_witness :
  wf empty_db /\
  handleSubmit (Some 7) cfg_ev Accepted Accepted empty_db
    = (fst (handleSubmit (Some 7) cfg_ev Accepted Accepted empty_db), SubmitCreated 0) /\
  map s_title (load_sections 0 (fst (handleSubmit (Some 7) cfg_ev Accepted Accepted empty_db)))
  = map trim (cfg_sections cfg_ev).
Proof.
  assert (Hwf : wf empty_db) by (repeat split; constructor).
  assert (Hc : handleSubmit (Some 7) cfg_ev Accepted Accepted empty_db
    = (fst (handleSubmit (Some 7) cfg_ev Accepted Accepted empty_db), SubmitCreated 0))
    by reflexivity.
  split; [exact Hwf|split; [exact Hc|]].
  exact (proj1 (proj2 (create_then_load _ _ _ _ _ _ _ Hwf Hc))).
Defined.

Lemma filter_owner : forall uid pid d l,
  filter (fun s => (s_project_id s =? pid) && owns_project uid (s_project_id s) d) l
  = if owns_project uid pid d then filter (fun s => s_project_id s =? pid) l else [].
Proof.
  intros uid pid d l; destruct (owns_project uid pid d) eqn:O;
    induction l as [|s l IH]; simpl; try reflexivity;
    destruct (s_project_id s =? pid) eqn:E; simpl; try exact IH;
    apply Nat.eqb_eq in E; rewrite E, O; simpl; rewrite IH; reflexivity.
Qed.

(** Under the SELECT policy of sections, [loadProject]'s sections query
    is all or nothing: a user who owns the project sees exactly the
    sections the unrestricted query returns, in the same order, and any
    other user sees none. *)
Theorem rls_load_sections_owner : forall uid pid d,
  rls_load_sections uid pid d = if owns_project uid pid d then load_sections pid d else [].
Proof.
  intros uid pid d; unfold rls_load_sections, load_sections, sections_policy.
  rewrite filter_owner; destruct (owns_project uid pid d); reflexivity.
Qed.

Lemma owns_project_fresh : forall v n ps q,
  Forall (fun p => p_id p < n) ps -> p_id q = n ->
  existsb (fun p => (p_id p =? n) && (p_user_id p =? v)) (ps ++ [q]) = (p_user_id q =? v).
Proof.
  intros v n ps q H Hq; induction H as [|p ps Hp _ IH]; simpl.
  - rewrite Hq, Nat.eqb_refl, orb_false_r; reflexivity.
  - replace (p_id p =? n) with false by (symmetry; apply Nat.eqb_neq; lia); exact IH.
Qed.

(** After a successful [handleSubmit] on a well-formed store, the row
    level security lets the creator read every section of the new project
    and hides them from every other user. *)
Theorem create_rls_visibility : forall uid c w1 w2 d d' pid,
  wf d -> handleSubmit (Some uid) c w1 w2 d = (d', SubmitCreated pid) ->
  forall v, rls_load_sections v pid d' = if v =? uid then load_sections pid d' else [].
Proof.
  intros uid c w1 w2 d d' pid (Hp & _) H v.
  apply handleSubmit_created in H as (u & Hu & _ & _ & -> & ->).
  injection Hu as <-.
  rewrite rls_load_sections_owner.
  unfold owns_project; simpl.
  rewrite owns_project_fresh by (try exact Hp; reflexivity); simpl.
  rewrite Nat.eqb_sym; reflexivity.
Qed.

Lemma create_rls_visibility_witness :
  wf empty_db /\
  handleSubmit (Some 7) cfg_ev Accepted Accepted empty_db
    = (fst (handleSubmit (Some 7) cfg_ev Accepted Accepted empty_db), SubmitCreated 0) /\
  rls_load_sections 8 0 (fst (handleSubmit (Some 7) cfg_ev Accepted Accepted empty_db)) = [].
Proof.
  assert (Hwf : wf empty_db) by (repeat split; constructor).
  assert (Hc : handleSubmit (Some 7) cfg_ev Accepted Accepted empty_db
    = (fst (handleSubmit (Some 7) cfg_ev Accepted Accepted empty_db), SubmitCreated 0))
    by reflexivity.
  split; [exact Hwf|split; [exact Hc|]].
  exact (create_rls_visibility _ _ _ _ _ _ _ Hwf Hc 8).
Defined.

Lemma insert_by_order_map : forall f s l,
  (forall x, s_order_index (f x) = s_order_index x) ->
  insert_by_order (f s) (map f l) = map f (insert_by_order s l).
Proof.
  intros f s l Hf; induction l as [|x l IH]; simpl; [reflexivity|].
  rewrite !Hf; destruct (s_order_index s <=? s_order_index x); simpl;
    [reflexivity|rewrite IH; reflexivity].
Qed.

Lemma sort_by_order_map : forall f l,
  (forall x, s_order_index (f x) = s_order_index x) ->
  sort_by_order (map f l) = map f (sort_by_order l).
Proof.
  intros f l Hf; induction l as [|s l IH]; [reflexivity|].
  change (insert_by_order (f s) (sort_by_order (map f l))
          = map f (insert_by_order s (sort_by_order l))).
  rewrite IH; apply insert_by_order_map, Hf.
Qed.

Lemma filter_project_map : forall f pid l,
  (forall x, s_project_id (f x) = s_project_id x) ->
  filter (fun s => s_project_id s =? pid) (map f l)
  = map f (filter (fun s => s_project_id s =? pid) l).
Proof.
  intros f pid l Hf; induction l as [|s l IH]; simpl; [reflexivity|].
  rewrite Hf; destruct (s_project_id s =? pid); simpl; rewrite IH; reflexivity.
Qed.

Lemma load_sections_map : forall f pid d d',
  sections d' = map f (sections d) ->
  (forall x, s_order_index (f x) = s_order_index x) ->
  (forall x, s_project_id (f x) = s_project_id x) ->
  load_sections pid d' = map f (load_sections pid d).
Proof.
  intros f pid d d' Hs Ho Hp; unfold load_sections.
  rewrite Hs, filter_project_map by exact Hp; apply sort_by_order_map, Ho.
Qed.

(** After a successful content generation run from the editor (the
    sections passed are the loaded ones), reloading the project gives the
    same sections in the same order, each now marked generated with the
    content the model produced for its id, whatever the store answered to
    the status writes; so the Generate button reappears only for a project
    without sections. *)
Theorem generateAllContent_success_reload : forall p pid w1 gen w2 d,
  load_sections pid
    (generateAllContent (Some p) pid (load_sections pid d) w1 (Some gen) w2 d)
  = map (fun s => set_generated (gen (s_id s)) s) (load_sections pid d) /\
  show_generate
    (load_sections pid
       (generateAllContent (Some p) pid (load_sections pid d) w1 (Some gen) w2 d))
  = (List.length (load_sections pid d) =? 0).
Proof.
  intros p pid w1 gen w2 d.
  assert (E : load_sections pid
    (generateAllContent (Some p) pid (load_sections pid d) w1 (Some gen) w2 d)
    = map (fun s => set_generated (gen (s_id s)) s) (load_sections pid d)).
  { rewrite (load_sections_map
      (fun s => if existsb (Nat.eqb (s_id s)) (map s_id (load_sections pid d))
                then set_generated (gen (s_id s)) s else s) pid d).
    - apply map_ext_in; intros s Hin.
      replace (existsb (Nat.eqb (s_id s)) (map s_id (load_sections pid d))) with true;
        [reflexivity|].
      symmetry; apply existsb_exists; exists (s_id s); split;
        [apply in_map, Hin|apply Nat.eqb_refl].
    - destruct w1, w2; reflexivity.
    - intros x; destruct (existsb _ _); reflexivity.
    - intros x; destruct (existsb _ _); reflexivity. }
  split; [exact E|]; rewrite E; unfold show_generate.
  destruct (load_sections pid d); reflexivity.
Qed.

(** Once the refine function has stored a non-empty refined text for a
    section of the loaded project, the reloaded editor offers the Export
    button. *)
Theorem refine_enables_export : forall k pid sid pr cur t c w1 d,
  c <> EmptyString -> In sid (map s_id (load_sections pid d)) ->
  show_export
    (load_sections pid (fst (refine_content (Some k) sid pr cur t (Some c) w1 Accepted d)))
  = true.
Proof.
  intros k pid sid pr cur t c w1 d Hc Hin.
  rewrite (load_sections_map
    (fun s => if s_id s =? sid then set_content c s else s) pid d).
  - apply in_map_iff in Hin as (s & Hs & Hin).
    unfold show_export; apply existsb_exists.
    eexists; split; [apply in_map, Hin|].
    rewrite Hs, Nat.eqb_refl; simpl.
    destruct (String.eqb c EmptyString) eqn:E; [|reflexivity].
    apply String.eqb_eq in E; contradiction.
  - destruct w1; reflexivity.
  - intros x; destruct (s_id x =? sid); reflexivity.
  - intros x; destruct (s_id x =? sid); reflexivity.
Qed.

Lemma refine_enables_export_witness :
  "new text"%string <> EmptyString /\ In 1 (map s_id (load_sections 0 db_refine)) /\
  show_export (load_sections 0 (fst (refine_content (Some "key"%string) 1 "shorter"
    (Some "old text"%string) "Overview" (Some "new text"%string) Accepted Accepted db_refine)))
  = true.
Proof.
  assert (Hc : "new text"%string <> EmptyString) by discriminate.
  assert (Hin : In 1 (map s_id (load_sections 0 db_refine))) by (simpl; auto).
  split; [exact Hc|split; [exact Hin|]].
  exact (refine_enables_export _ _ _ _ _ _ _ _ _ Hc Hin).
Defined.




